(** * The alert webhook of [webhook/app.py]

    A shallow embedding of the Flask route [alert_receiver] and the
    properties of its alert dispatch.

    The handler reads the parsed request body, prints to standard output
    and runs one shell command.  It is embedded as a computation in a state
    and exception monad over a [world] that holds the request's JSON and
    the trace of output events.  What [request.get_json()] does, return a
    value ([None] is [JNull]) or raise, is the input of the model: parsing
    the HTTP request is Flask's work, not the repository's.  An exception
    that leaves the handler is an outcome of its own, [Raise]; what Flask
    answers then is outside the model. *)

From Stdlib Require Import ZArith String Ascii SpecFloat.
From stdpp Require Import base strings gmap list.

Local Open Scope string_scope.
Local Open Scope Z_scope.
Local Open Scope list_scope.

(** ** Values *)

#[local] Set Warnings "-register-all".

(** What [json.loads] builds: [None], [bool], [int], [float], [str], [list]
    and [dict] with string keys. *)
Inductive json : Type :=
| JNull
| JBool (b : bool)
| JInt (z : Z)
| JFloat (f : spec_float)
| JStr (s : string)
| JArr (items : list json)
| JObj (fields : gmap string json).

(** The exceptions the handler's operations raise; [HTTPException] stands
    for what [request.get_json()] raises ([BadRequest],
    [UnsupportedMediaType]), with its status code. *)
Inductive exn : Type :=
| KeyError (key : string)
| TypeError
| AttributeError (attr : string)
| HTTPException (code : Z).

(** A call returns a value or raises. *)
Inductive outcome (A : Type) : Type :=
| Ret (a : A)
| Raise (e : exn).
Arguments Ret {A} a.
Arguments Raise {A} e.

(** Output of the handler: a line printed, or a command handed to
    [os.system] together with the status the call returned. *)
Inductive event : Type :=
| EvPrint (line : string)
| EvSystem (cmd : string) (status : Z).

(** The state a request is handled in.  [request_json] is what
    [request.get_json()] does on the request: the value it returns, or the
    exception it raises when the body is empty, is not JSON or is not
    declared as JSON.  Which requests Flask refuses depends on its version
    and is not the repository's code, so the result of the call is given
    with the request. *)
Record world : Type := World {
  request_json : outcome json;
  trace : list event
}.

(** A Flask view result [(body, status)]. *)
Definition response : Type := string * Z.

(** ** Python operations on parsed JSON *)

Module Py.

Definition float_is_zero (f : spec_float) : bool :=
  match f with
  | S754_zero _ => true
  | _ => false
  end.

(** [bool(x)] *)
Definition truthy (x : json) : bool :=
  match x with
  | JNull => false
  | JBool b => b
  | JInt z => negb (z =? 0)
  | JFloat f => negb (float_is_zero f)
  | JStr s => negb (String.eqb s "")
  | JArr items => match items with [] => false | _ :: _ => true end
  | JObj fields => negb (bool_decide (fields = ∅))
  end.

(** [x == s] for a string [s]: only an equal [str] compares equal. *)
Definition eq_str (x : json) (s : string) : bool :=
  match x with
  | JStr t => String.eqb t s
  | _ => false
  end.

(** [needle in hay] on two strings. *)
Fixpoint is_substring (needle hay : string) : bool :=
  String.prefix needle hay ||
  match hay with
  | EmptyString => false
  | String _ hay' => is_substring needle hay'
  end.

(** [s in x] for a string [s] *)
Definition contains (s : string) (x : json) : outcome bool :=
  match x with
  | JObj fields => Ret (bool_decide (is_Some (fields !! s)))
  | JArr items => Ret (existsb (λ y, eq_str y s) items)
  | JStr t => Ret (is_substring s t)
  | JNull | JBool _ | JInt _ | JFloat _ => Raise TypeError
  end.

(** [x[k]] for a string [k] *)
Definition getitem (x : json) (k : string) : outcome json :=
  match x with
  | JObj fields =>
      match fields !! k with
      | Some v => Ret v
      | None => Raise (KeyError k)
      end
  | _ => Raise TypeError
  end.

(** [x.get(k, default)]: only a [dict] has the method. *)
Definition get (x : json) (k : string) (dflt : json) : outcome json :=
  match x with
  | JObj fields => Ret (default dflt (fields !! k))
  | _ => Raise (AttributeError "get")
  end.

(** [iter(x)]: the items of a [list], the keys of a [dict], the
    characters of a [str]; anything else is not iterable.  A [dict] is
    walked in insertion order and a [str] by code point, which a [gmap]
    and a byte string do not record: the handler subscripts every item
    with a string, which fails on the first key or character whatever it
    is (lemma [for_alerts_strings] below). *)
Definition iter (x : json) : outcome (list json) :=
  match x with
  | JArr items => Ret items
  | JObj fields => Ret ((λ kv : string * json, JStr kv.1) <$> map_to_list fields)
  | JStr s => Ret ((λ c, JStr (String c EmptyString)) <$> list_ascii_of_string s)
  | JNull | JBool _ | JInt _ | JFloat _ => Raise TypeError
  end.

End Py.

(** ** The monad of the handler *)

Definition M (A : Type) : Type := world → outcome A * world.

#[global] Instance handler_ret : MRet M := λ A a w, (Ret a, w).

#[global] Instance handler_bind : MBind M := λ A B k m w,
  match m w with
  | (Ret a, w') => k a w'
  | (Raise e, w') => (Raise e, w')
  end.

(** A pure operation that may raise. *)
Definition lift {A} (o : outcome A) : M A := λ w, (o, w).

Definition append_event (e : event) (w : world) : world :=
  World (request_json w) (trace w ++ [e]).

(** [request.get_json()]: the parsed body, or the exception Flask raises
    for a request it cannot read as JSON. *)
Definition get_json : M json := λ w, (request_json w, w).

(** [print(line)] *)
Definition print (line : string) : M unit :=
  λ w, (Ret (), append_event (EvPrint line) w).

(** The strings and responses of the route. *)
Definition playbook_cmd : string := "ansible-playbook ../ansible/playbook.yml".

Definition alert_line : string :=
  "Alert received: NGINX is down! Attempting restart...".

Definition recovery_triggered : response := ("Recovery triggered", 200).
Definition no_matching_alert : response := ("No matching alert found", 200).
Definition invalid_alert : response := ("Invalid alert", 400).

Section Handler.

(** The machine the service runs on: the status [os.system] returns for
    a command, given everything the handler has output so far. *)
Variable shell : list event → string → Z.

(** [os.system(cmd)] *)
Definition os_system (cmd : string) : M Z :=
  λ w, let status := shell (trace w) cmd in
       (Ret status, append_event (EvSystem cmd status) w).

(** The [for alert in data["alerts"]] loop; [Some r] is a [return r]
    from inside the loop. *)
Fixpoint for_alerts (alerts : list json) : M (option response) :=
  match alerts with
  | [] => mret None
  | alert :: rest =>
      labels ← lift (Py.getitem alert "labels");
      alertname ← lift (Py.get labels "alertname" (JStr ""));
      if Py.eq_str alertname "NginxDown" then
        print alert_line;;
        os_system playbook_cmd;;
        mret (Some recovery_triggered)
      else for_alerts rest
  end.

(** [not data or "alerts" not in data] *)
Definition is_invalid (data : json) : M bool :=
  if negb (Py.truthy data) then mret true
  else found ← lift (Py.contains "alerts" data); mret (negb found).

Definition alert_receiver : M response :=
  data ← get_json;
  print "Webhook received!";;
  invalid ← is_invalid data;
  if invalid : bool then mret invalid_alert
  else
    alerts ← lift (Py.getitem data "alerts");
    items ← lift (Py.iter alerts);
    early ← for_alerts items;
    match early with
    | Some r => mret r
    | None => mret no_matching_alert
    end.

(** One request whose body [request.get_json()] parses to [data],
    handled after the events [tr]. *)
Definition handle (data : json) (tr : list event) : outcome response * world :=
  alert_receiver (World (Ret data) tr).

End Handler.

(** ** Observations *)

Definition is_executor_call (e : event) : bool :=
  match e with
  | EvSystem _ _ => true
  | EvPrint _ => false
  end.

(** How many times the remediation command was run. *)
Definition executor_calls (tr : list event) : nat :=
  length (List.filter is_executor_call tr).

(** The [labels] mapping of an alert entry of the shape the route expects:
    an object whose ["labels"] is an object. *)
Definition alert_labels (a : json) : option (gmap string json) :=
  match a with
  | JObj fields =>
      match fields !! "labels" with
      | Some (JObj labels) => Some labels
      | _ => None
      end
  | _ => None
  end.

Definition well_formed (a : json) : bool :=
  match alert_labels a with Some _ => true | None => false end.

(** The alert's name is that of the one remediation rule. *)
Definition matches (a : json) : bool :=
  match alert_labels a with
  | Some labels =>
      match labels !! "alertname" with
      | Some (JStr name) => String.eqb name "NginxDown"
      | _ => false
      end
  | None => false
  end.

(** The entry has no ["labels"] key, or is not a mapping at all. *)
Definition lacks_labels (a : json) : bool :=
  match a with
  | JObj fields => match fields !! "labels" with Some _ => false | None => true end
  | _ => true
  end.

(** The body is an object with the field [k]. *)
Definition has_field (k : string) (x : json) : bool :=
  match x with
  | JObj fields => match fields !! k with Some _ => true | None => false end
  | _ => false
  end.

(** The bodies the guard [not data or "alerts" not in data] turns away:
    false in the Python sense, an object (here: one without the field), an
    array with no element "alerts", a string that does not contain
    "alerts". *)
Definition guard_rejects (data : json) : Prop :=
  Py.truthy data = false ∨ (∃ fields, data = JObj fields) ∨
  (∃ items, data = JArr items ∧ JStr "alerts" ∉ items) ∨
  (∃ s, data = JStr s ∧ ¬ ∃ p q, s = p +:+ "alerts" +:+ q).

(** The bodies that are not objects and that the guard does not turn
    away: true or a nonzero number, an array with an element "alerts", a
    string containing "alerts". *)
Definition guard_misses (data : json) : Prop :=
  (Py.truthy data = true ∧
   ((∃ b, data = JBool b) ∨ (∃ z, data = JInt z) ∨ (∃ f, data = JFloat f))) ∨
  (∃ items, data = JArr items ∧ JStr "alerts" ∈ items) ∨
  (∃ s, data = JStr s ∧ ∃ p q, s = p +:+ "alerts" +:+ q).

(** A batch: an object whose ["alerts"] is the sequence [alerts]. *)
Definition batch_of (data : json) (alerts : list json) : Prop :=
  ∃ fields, data = JObj fields ∧ fields !! "alerts" = Some (JArr alerts).

(** *** Sample requests *)

Definition alert_named (name : string) : json :=
  JObj {[ "labels" := JObj {[ "alertname" := JStr name ]} ]}.

(** An alert with labels, none of them "alertname". *)
Definition unnamed_alert : json :=
  JObj {[ "labels" := JObj {[ "severity" := JStr "critical" ]} ]}.

Definition batch (alerts : list json) : json :=
  JObj {[ "alerts" := JArr alerts ]}.

(** Scenario 1 of the specification. *)
Definition nginx_down_batch : json := batch [alert_named "NginxDown"].

(** A machine on which every command succeeds, and one on which every
    command exits with status 1, which [os.system] reports as 256. *)
Definition quiet_shell : list event → string → Z := λ _ _, 0.
Definition failing_shell : list event → string → Z := λ _ _, 256.

(** ** A pure view of the loop *)

(** What one iteration decides about its alert: [Ret true] to remediate,
    [Ret false] to go on with the next alert, or the exception raised. *)
Definition inspect (a : json) : outcome bool :=
  match Py.getitem a "labels" with
  | Ret labels =>
      match Py.get labels "alertname" (JStr "") with
      | Ret alertname => Ret (Py.eq_str alertname "NginxDown")
      | Raise e => Raise e
      end
  | Raise e => Raise e
  end.

Fixpoint scan (alerts : list json) : outcome bool :=
  match alerts with
  | [] => Ret false
  | a :: rest =>
      match inspect a with
      | Ret true => Ret true
      | Ret false => scan rest
      | Raise e => Raise e
      end
  end.

(** The events of the handler up to the loop, and those of a remediation. *)
Definition received (tr : list event) : list event :=
  tr ++ [EvPrint "Webhook received!"].

Definition remediated (shell : list event → string → Z) (tr : list event) : list event :=
  tr ++ [EvPrint alert_line;
         EvSystem playbook_cmd (shell (tr ++ [EvPrint alert_line]) playbook_cmd)].

(** ** Tactics *)

(** Unfolds the monadic steps of the handler that come before the loop. *)
Ltac run_handler :=
  unfold handle, alert_receiver, is_invalid, get_json, print, lift,
    append_event, mbind, handler_bind, mret, handler_ret, received;
  cbn [request_json trace fst snd negb].

(** Decides a property of every entry of a sample batch. *)
Ltac all_entries := repeat constructor; vm_compute; reflexivity.

(** ** The loop *)

Section Loop.

Variable shell : list event → string → Z.

Lemma for_alerts_cons a rest w :
  for_alerts shell (a :: rest) w =
    match inspect a with
    | Ret true =>
        (Ret (Some recovery_triggered),
         World (request_json w) (remediated shell (trace w)))
    | Ret false => for_alerts shell rest w
    | Raise e => (Raise e, w)
    end.
Proof.
  unfold inspect. cbn [for_alerts].
  unfold mbind, handler_bind, lift.
  destruct (Py.getitem a "labels") as [labels|e]; [|done].
  destruct (Py.get labels "alertname" (JStr "")) as [name|e]; [|done].
  destruct (Py.eq_str name "NginxDown"); [|done].
  unfold remediated, print, os_system, append_event; cbn.
  by rewrite <- app_assoc.
Qed.

(** Iterating the keys of a [dict] or the characters of a [str]: the
    first item, a string, cannot be subscripted with "labels". *)
Lemma for_alerts_strings {A} (f : A → string) (l : list A) w :
  for_alerts shell ((λ x, JStr (f x)) <$> l) w =
    match l with
    | [] => (Ret None, w)
    | _ :: _ => (Raise TypeError, w)
    end.
Proof. destruct l; [done|]. by rewrite fmap_cons, for_alerts_cons. Qed.

Lemma for_alerts_scan alerts w :
  for_alerts shell alerts w =
    match scan alerts with
    | Ret true =>
        (Ret (Some recovery_triggered),
         World (request_json w) (remediated shell (trace w)))
    | Ret false => (Ret None, w)
    | Raise e => (Raise e, w)
    end.
Proof.
  induction alerts as [|a rest IH]; [done|].
  rewrite for_alerts_cons. cbn [scan].
  destruct (inspect a) as [[]|e]; done.
Qed.

End Loop.

(** *** What [inspect] does on each shape of entry *)

Lemma inspect_matches a : inspect a = Ret true ↔ matches a = true.
Proof.
  unfold inspect, matches, alert_labels, Py.getitem, Py.get, Py.eq_str.
  destruct a as [| | | | |?|fields]; try (split; discriminate).
  destruct (fields !! "labels") as [[| | | | |?|labels]|]; try (split; discriminate).
  cbn. destruct (labels !! "alertname") as [[| | | |s|?|?]|]; cbn;
    try (split; discriminate).
  split; [by intros [= ->]|by intros ->].
Qed.

Lemma inspect_no_match a :
  well_formed a = true → matches a = false → inspect a = Ret false.
Proof.
  intros Hwf Hm.
  assert (inspect a ≠ Ret true) as Hne by (rewrite inspect_matches; congruence).
  revert Hwf Hne. unfold well_formed, inspect, alert_labels, Py.getitem, Py.get.
  destruct a as [| | | | |?|fields]; try discriminate.
  destruct (fields !! "labels") as [[| | | | |?|labels]|]; try discriminate.
  intros _. by destruct (Py.eq_str _ _).
Qed.

Lemma inspect_lacks_labels a :
  lacks_labels a = true →
  inspect a = Raise (KeyError "labels") ∨ inspect a = Raise TypeError.
Proof.
  unfold lacks_labels, inspect, Py.getitem.
  destruct a as [| | | | |?|fields]; auto.
  destruct (fields !! "labels"); [discriminate|auto].
Qed.

Lemma inspect_raises a e :
  inspect a = Raise e →
  (lacks_labels a = true ∧ (e = KeyError "labels" ∨ e = TypeError)) ∨
  (lacks_labels a = false ∧ well_formed a = false ∧ e = AttributeError "get").
Proof.
  unfold lacks_labels, well_formed, alert_labels, inspect, Py.getitem, Py.get.
  destruct a as [| | | | |?|fields]; try (intros [= <-]; auto).
  destruct (fields !! "labels") as [[| | | | |?|labels]|];
    intros [= <-]; auto.
Qed.

(** ** The handler *)

Lemma batch_truthy data alerts :
  batch_of data alerts →
  Py.truthy data = true ∧ Py.contains "alerts" data = Ret true ∧
  Py.getitem data "alerts" = Ret (JArr alerts).
Proof.
  intros (fields & -> & Hlk). cbn. rewrite Hlk. split_and!; [|done..].
  rewrite bool_decide_eq_false_2; [done|].
  intros ->. by rewrite lookup_empty in Hlk.
Qed.

Lemma batch_of_batch alerts : batch_of (batch alerts) alerts.
Proof. eexists. split; [done|]. apply lookup_singleton_eq. Qed.

(** On a batch the handler is the loop over its alerts. *)
Lemma handle_batch shell data alerts tr :
  batch_of data alerts →
  handle shell data tr =
    match scan alerts with
    | Ret true => (Ret recovery_triggered, World (Ret data) (remediated shell (received tr)))
    | Ret false => (Ret no_matching_alert, World (Ret data) (received tr))
    | Raise e => (Raise e, World (Ret data) (received tr))
    end.
Proof.
  intros (Ht & Hc & Hg)%batch_truthy. run_handler.
  rewrite Ht, Hc, Hg. cbn. rewrite for_alerts_scan.
  by destruct (scan alerts) as [[]|e].
Qed.

(** Whatever the body, the handler either remediates once and answers
    [recovery_triggered], or only prints its first line. *)
Lemma handle_cases shell data tr :
  handle shell data tr =
    (Ret recovery_triggered, World (Ret data) (remediated shell (received tr))) ∨
  ∃ o, handle shell data tr = (o, World (Ret data) (received tr)).
Proof.
  run_handler.
  destruct (Py.truthy data); cbn; [|eauto].
  destruct (Py.contains "alerts" data) as [[]|e]; cbn; [|eauto..].
  destruct (Py.getitem data "alerts") as [alerts|e]; cbn; [|eauto].
  destruct (Py.iter alerts) as [items|e]; cbn; [|eauto].
  rewrite for_alerts_scan.
  destruct (scan items) as [[]|e]; cbn; eauto.
Qed.

(** When "alerts" holds a [dict] rather than a list, the loop runs over
    its keys and fails on the first one, in whatever order they come. *)
Lemma handle_alerts_dict shell fields entries tr :
  fields !! "alerts" = Some (JObj entries) →
  handle shell (JObj fields) tr =
    (if bool_decide (entries = ∅) then Ret no_matching_alert else Raise TypeError,
     World (Ret (JObj fields)) (received tr)).
Proof.
  intros Hlk. run_handler. cbn. rewrite Hlk.
  rewrite bool_decide_eq_false_2 by (intros ->; by rewrite lookup_empty in Hlk).
  cbn. rewrite (for_alerts_strings shell fst).
  case_bool_decide as He.
  - subst entries. by rewrite map_to_list_empty.
  - destruct (map_to_list entries) eqn:Hl; [|done].
    by apply map_to_list_empty_iff in Hl.
Qed.

Lemma handle_outcome_shell shell shell' data tr :
  (handle shell data tr).1 = (handle shell' data tr).1.
Proof.
  run_handler.
  destruct (Py.truthy data); cbn; [|done].
  destruct (Py.contains "alerts" data) as [[]|e]; cbn; [|done..].
  destruct (Py.getitem data "alerts") as [alerts|e]; cbn; [|done].
  destruct (Py.iter alerts) as [items|e]; cbn; [|done].
  rewrite !for_alerts_scan.
  by destruct (scan items) as [[]|e].
Qed.

Lemma executor_calls_app tr tr' :
  executor_calls (tr ++ tr') = (executor_calls tr + executor_calls tr')%nat.
Proof. unfold executor_calls. by rewrite List.filter_app, length_app. Qed.

Lemma executor_calls_received tr :
  executor_calls (received tr) = executor_calls tr.
Proof. unfold received. rewrite executor_calls_app. cbn. lia. Qed.

Lemma executor_calls_remediated shell tr :
  executor_calls (remediated shell tr) = S (executor_calls tr).
Proof. unfold remediated. rewrite executor_calls_app. cbn. lia. Qed.

(** *** The loop on a prefix without a match *)

Lemma scan_app_skip pre rest :
  Forall (λ a, well_formed a = true ∧ matches a = false) pre →
  scan (pre ++ rest) = scan rest.
Proof.
  induction 1 as [|a pre [Hwf Hm] _ IH]; [done|].
  cbn. by rewrite (inspect_no_match a Hwf Hm).
Qed.

Lemma scan_hit a post : matches a = true → scan (a :: post) = Ret true.
Proof. intros Hm%inspect_matches. cbn. by rewrite Hm. Qed.

Lemma scan_no_match alerts :
  Forall (λ a, well_formed a = true) alerts →
  Forall (λ a, matches a = false) alerts →
  scan alerts = Ret false.
Proof.
  intros Hwf Hm. rewrite <- (app_nil_r alerts).
  rewrite scan_app_skip; [done|].
  apply Forall_forall. intros a Ha.
  rewrite Forall_forall in Hwf, Hm. auto.
Qed.

(** The first matching alert of a well-formed batch that has one. *)
Lemma first_match_split alerts :
  Exists (λ a, matches a = true) alerts →
  ∃ pre hit post,
    alerts = pre ++ hit :: post ∧
    Forall (λ a, matches a = false) pre ∧ matches hit = true.
Proof.
  induction 1 as [a rest Hm|a rest _ (pre & hit & post & -> & Hpre & Hhit)].
  - by exists [], a, rest.
  - destruct (matches a) eqn:Hm.
    + by exists [], a, (pre ++ hit :: post).
    + exists (a :: pre), hit, post. split_and!; [done| |done].
      by constructor.
Qed.

Lemma filter_matches_exists alerts :
  (1 ≤ length (List.filter matches alerts))%nat →
  Exists (λ a, matches a = true) alerts.
Proof.
  intros Hlen. apply List.Exists_exists.
  destruct (List.filter matches alerts) as [|a l] eqn:Hf; [cbn in Hlen; lia|].
  exists a. apply List.filter_In. rewrite Hf. by left.
Qed.

Lemma scan_first_match pre hit post :
  Forall (λ a, well_formed a = true) pre →
  Forall (λ a, matches a = false) pre →
  matches hit = true →
  scan (pre ++ hit :: post) = Ret true.
Proof.
  intros Hwf Hpre Hhit. rewrite scan_app_skip; [by apply scan_hit|].
  apply Forall_forall. intros a Ha.
  rewrite Forall_forall in Hwf, Hpre. auto.
Qed.

Lemma scan_match alerts :
  Forall (λ a, well_formed a = true) alerts →
  Exists (λ a, matches a = true) alerts →
  scan alerts = Ret true.
Proof.
  intros Hwf (pre & hit & post & -> & Hpre & Hhit)%first_match_split.
  apply scan_first_match; [|done..].
  by apply Forall_app in Hwf as [? _].
Qed.

Lemma scan_skip_entry pre a rest :
  inspect a = Ret false → scan (pre ++ a :: rest) = scan (pre ++ rest).
Proof.
  intros Ha. induction pre as [|b pre IH]; cbn; [by rewrite Ha|].
  by rewrite IH.
Qed.

(** ** The handler on every shape of body *)

(** The handler as one case analysis on pure operations. *)
Lemma handle_body shell data tr :
  handle shell data tr =
    if Py.truthy data then
      match Py.contains "alerts" data with
      | Ret true =>
          match Py.getitem data "alerts" with
          | Ret alerts =>
              match Py.iter alerts with
              | Ret items =>
                  match scan items with
                  | Ret true =>
                      (Ret recovery_triggered,
                       World (Ret data) (remediated shell (received tr)))
                  | Ret false => (Ret no_matching_alert, World (Ret data) (received tr))
                  | Raise e => (Raise e, World (Ret data) (received tr))
                  end
              | Raise e => (Raise e, World (Ret data) (received tr))
              end
          | Raise e => (Raise e, World (Ret data) (received tr))
          end
      | Ret false => (Ret invalid_alert, World (Ret data) (received tr))
      | Raise e => (Raise e, World (Ret data) (received tr))
      end
    else (Ret invalid_alert, World (Ret data) (received tr)).
Proof.
  run_handler.
  destruct (Py.truthy data); cbn; [|done].
  destruct (Py.contains "alerts" data) as [[]|e]; cbn; [|done..].
  destruct (Py.getitem data "alerts") as [alerts|e]; cbn; [|done].
  destruct (Py.iter alerts) as [items|e]; cbn; [|done].
  rewrite for_alerts_scan.
  by destruct (scan items) as [[]|e].
Qed.

(** An object with an "alerts" field: the loop over what the field
    iterates to. *)
Lemma handle_object shell fields v tr :
  fields !! "alerts" = Some v →
  handle shell (JObj fields) tr =
    match Py.iter v with
    | Ret items =>
        match scan items with
        | Ret true =>
            (Ret recovery_triggered,
             World (Ret (JObj fields)) (remediated shell (received tr)))
        | Ret false => (Ret no_matching_alert, World (Ret (JObj fields)) (received tr))
        | Raise e => (Raise e, World (Ret (JObj fields)) (received tr))
        end
    | Raise e => (Raise e, World (Ret (JObj fields)) (received tr))
    end.
Proof.
  intros Hlk. rewrite handle_body. cbn. rewrite Hlk.
  by rewrite bool_decide_eq_false_2 by (intros ->; by rewrite lookup_empty in Hlk).
Qed.

Lemma handle_object_missing shell fields tr :
  fields !! "alerts" = None →
  handle shell (JObj fields) tr =
    (Ret invalid_alert, World (Ret (JObj fields)) (received tr)).
Proof.
  intros Hlk. rewrite handle_body. cbn. rewrite Hlk.
  by destruct (bool_decide (fields = ∅)).
Qed.

(** A body that is not an object never reaches the loop. *)
Lemma handle_not_object shell data tr :
  (∀ fields, data ≠ JObj fields) →
  ∃ o, handle shell data tr = (o, World (Ret data) (received tr)) ∧
       (o = Ret invalid_alert ∨ o = Raise TypeError).
Proof.
  intros Hno. rewrite handle_body.
  destruct data as [|b|z|f|s|items|fields]; cbn;
    [| | | | | |by destruct (Hno fields)];
    repeat case_match; eauto.
Qed.

(** Replaces the run on a body that is visibly not an object by its two
    possible outcomes. *)
Ltac not_object :=
  match goal with
  | |- context [handle ?sh ?d ?t] =>
      let H := fresh in
      assert (∀ fields, d ≠ JObj fields) as H by done;
      destruct (handle_not_object sh d t H) as (? & -> & [-> | ->])
  end.

(** ** The loop, in terms of the entries *)

Lemma inspect_skip a :
  inspect a = Ret false ↔ well_formed a = true ∧ matches a = false.
Proof.
  split; [|by intros [? ?]; apply inspect_no_match].
  intros Hi. split.
  - revert Hi. unfold inspect, well_formed, alert_labels, Py.getitem, Py.get.
    destruct a as [| | | | |?|fields]; try discriminate.
    by destruct (fields !! "labels") as [[| | | | |?|labels]|].
  - destruct (matches a) eqn:Hm; [|done].
    apply inspect_matches in Hm. congruence.
Qed.

Lemma scan_true alerts :
  scan alerts = Ret true ↔
  ∃ pre hit post,
    alerts = pre ++ hit :: post ∧
    Forall (λ a, well_formed a = true ∧ matches a = false) pre ∧
    matches hit = true.
Proof.
  split.
  - induction alerts as [|a rest IH]; cbn; [discriminate|].
    destruct (inspect a) as [[]|e] eqn:Ha; [| |discriminate].
    + intros _. exists [], a, rest. by apply inspect_matches in Ha.
    + intros (pre & hit & post & -> & Hpre & Hhit)%IH.
      exists (a :: pre), hit, post. split_and!; [done| |done].
      constructor; [by apply inspect_skip|done].
  - intros (pre & hit & post & -> & Hpre & Hhit).
    rewrite scan_app_skip by done. by apply scan_hit.
Qed.

Lemma scan_false alerts :
  scan alerts = Ret false ↔
  Forall (λ a, well_formed a = true ∧ matches a = false) alerts.
Proof.
  split.
  - induction alerts as [|a rest IH]; cbn; [by constructor|].
    destruct (inspect a) as [[]|e] eqn:Ha; [discriminate| |discriminate].
    intros Hrest. constructor; [by apply inspect_skip|by apply IH].
  - intros Hall. rewrite <- (app_nil_r alerts). by rewrite scan_app_skip.
Qed.

Lemma scan_raises alerts e :
  scan alerts = Raise e →
  e = KeyError "labels" ∨ e = TypeError ∨ e = AttributeError "get".
Proof.
  induction alerts as [|a rest IH]; cbn; [discriminate|].
  destruct (inspect a) as [[]|e'] eqn:Ha; [discriminate|done|].
  intros [= ->].
  destruct (inspect_raises a e Ha) as [[_ [?|?]]|(_ & _ & ?)]; auto.
Qed.

(** The loop over strings, as met when "alerts" is a [dict] or a [str]. *)
Lemma scan_strings {A} (f : A → string) (l : list A) :
  scan ((λ x, JStr (f x)) <$> l) =
    match l with
    | [] => Ret false
    | _ :: _ => Raise TypeError
    end.
Proof. by destruct l. Qed.

(** ** Membership tests *)

Lemma append_cons c s q : String c s +:+ q = String c (s +:+ q).
Proof. reflexivity. Qed.

Lemma prefix_append n h :
  String.prefix n h = true ↔ ∃ q, h = (n +:+ q).
Proof.
  revert h. induction n as [|c n IH]; intros [|d h]; cbn.
  - split; [by exists EmptyString|done].
  - split; [by exists (String d h)|done].
  - split; [done|by intros [q ?]].
  - destruct (Ascii.ascii_dec c d) as [->|Hne].
    + rewrite IH. split; intros [q Hq]; exists q;
        rewrite append_cons in *; congruence.
    + split; [done|]. intros [q Hq]. rewrite append_cons in Hq. congruence.
Qed.

(** [is_substring] is Python's [in] on strings. *)
Lemma is_substring_spec n h :
  Py.is_substring n h = true ↔ ∃ p q, h = (p +:+ n +:+ q).
Proof.
  induction h as [|c h IH]; cbn [Py.is_substring];
    rewrite orb_true_iff, prefix_append.
  - split.
    + intros [[q Hq]|?]; [|done]. by exists EmptyString, q.
    + intros ([|? p] & q & Hq); [|done]. left. by exists q.
  - rewrite IH. split.
    + intros [[q Hq]|(p & q & ->)]; [by exists EmptyString, q|].
      by exists (String c p), q.
    + intros ([|d p] & q & Hq); [left; by exists q|].
      right. exists p, q. rewrite append_cons in Hq. congruence.
Qed.

Lemma existsb_eq_str s items :
  existsb (λ y, Py.eq_str y s) items = true ↔ JStr s ∈ items.
Proof.
  rewrite existsb_exists, list_elem_of_In. split.
  - intros (y & Hy & Heq). destruct y; try done.
    cbn in Heq. by apply String.eqb_eq in Heq as ->.
  - intros Hin. exists (JStr s). split; [done|]. cbn. apply String.eqb_refl.
Qed.

Lemma scan_replace_entry pre a a' rest :
  inspect a = inspect a' → scan (pre ++ a :: rest) = scan (pre ++ a' :: rest).
Proof.
  intros Ha. induction pre as [|b pre IH]; cbn; [by rewrite Ha|].
  by rewrite IH.
Qed.

Lemma inspect_labels a labels :
  alert_labels a = Some labels →
  inspect a = Ret (Py.eq_str (default (JStr "") (labels !! "alertname")) "NginxDown").
Proof.
  unfold alert_labels, inspect, Py.getitem.
  destruct a as [| | | | |?|fields]; try discriminate.
  destruct (fields !! "labels") as [[| | | | |?|l]|]; try discriminate.
  by intros [= ->].
Qed.

(** Either one remediation and "Recovery triggered", or no remediation
    and another outcome. *)
Lemma handle_cases_strict shell data tr :
  handle shell data tr =
    (Ret recovery_triggered, World (Ret data) (remediated shell (received tr))) ∨
  ∃ o, handle shell data tr = (o, World (Ret data) (received tr)) ∧
       o ≠ Ret recovery_triggered.
Proof.
  rewrite handle_body. repeat case_match; auto; right; by eexists.
Qed.

(** What "alerts" iterates to when it is not a list. *)
Lemma iter_not_a_list v :
  (∀ alerts, v ≠ JArr alerts) →
  match Py.iter v with
  | Ret items =>
      scan items = Ret false ∧ (v = JObj ∅ ∨ v = JStr "") ∨
      scan items = Raise TypeError ∧ v ≠ JObj ∅ ∧ v ≠ JStr ""
  | Raise e => e = TypeError ∧ v ≠ JObj ∅ ∧ v ≠ JStr ""
  end.
Proof.
  intros Hv. destruct v as [|b|z|f|s|alerts|entries]; cbn; try done.
  - rewrite (scan_strings (λ c, String c EmptyString)).
    destruct s; cbn; [by left; auto|by right].
  - by destruct (Hv alerts).
  - rewrite (scan_strings fst).
    destruct (map_to_list entries) eqn:Hl.
    + apply map_to_list_empty_iff in Hl as ->. left; auto.
    + right. split_and!; [done| |done].
      intros [= ->]. by rewrite map_to_list_empty in Hl.
Qed.

(** *** The first entry that is not well-formed *)

Lemma lacks_labels_ill_formed a : lacks_labels a = true → well_formed a = false.
Proof.
  unfold lacks_labels, well_formed, alert_labels.
  destruct a as [| | | | |?|fields]; try done.
  by destruct (fields !! "labels").
Qed.

Lemma inspect_ill_formed a :
  well_formed a = false → matches a = false → ∃ e, inspect a = Raise e.
Proof.
  intros Hwf Hm. destruct (inspect a) as [[]|e] eqn:Ha; [| |by exists e].
  - apply inspect_matches in Ha. congruence.
  - apply inspect_skip in Ha as [? _]. congruence.
Qed.

(** With an entry that lacks "labels" before any match, the loop stops at
    the first entry that is not well-formed, with the exception of that
    entry. *)
Lemma scan_first_ill_formed pre bad post :
  Forall (λ a, matches a = false) pre →
  lacks_labels bad = true →
  ∃ before x after e,
    pre ++ bad :: post = before ++ x :: after ∧
    (length before ≤ length pre)%nat ∧
    Forall (λ a, well_formed a = true) before ∧
    well_formed x = false ∧
    scan (pre ++ bad :: post) = Raise e ∧
    inspect x = Raise e.
Proof.
  intros Hpre Hbad. induction Hpre as [|a pre Hm _ IH].
  - pose proof (lacks_labels_ill_formed bad Hbad) as Hwf.
    assert (matches bad = false) as Hm
      by (unfold matches, well_formed in *; by destruct (alert_labels bad)).
    destruct (inspect_ill_formed bad Hwf Hm) as [e He].
    exists [], bad, post, e. cbn. rewrite He.
    split_and!; first [done | lia | by constructor].
  - destruct (well_formed a) eqn:Hwf.
    + destruct IH as (before & x & after & e & Heq & Hlen & Hbefore & Hx & Hs & Hi).
      exists (a :: before), x, after, e. cbn.
      rewrite (inspect_no_match a Hwf Hm), Hs.
      split_and!; first [done | lia | by constructor | by rewrite Heq].
    + destruct (inspect_ill_formed a Hwf Hm) as [e He].
      exists [], a, (pre ++ bad :: post), e. cbn. rewrite He.
      split_and!; first [done | lia | by constructor].
Qed.

(** *** Bodies without an "alerts" field *)

Lemma not_guard_misses_falsy data : Py.truthy data = false → ¬ guard_misses data.
Proof.
  intros Ht [[Ht' _]|[(items & -> & Hin)|(s & -> & p & q & ->)]].
  - congruence.
  - destruct items; [by apply elem_of_nil in Hin|done].
  - destruct p; discriminate.
Qed.

(** On a body without the field the handler answers 400 or raises
    [TypeError], and which of the two is told by the shape of the body. *)
Lemma handle_without_field shell data tr :
  has_field "alerts" data = false →
  (handle shell data tr = (Ret invalid_alert, World (Ret data) (received tr)) ∧
   ¬ guard_misses data) ∨
  (handle shell data tr = (Raise TypeError, World (Ret data) (received tr)) ∧
   ¬ guard_rejects data).
Proof.
  intros Hf. rewrite handle_body.
  destruct (Py.truthy data) eqn:Ht;
    [|left; split; [done|by apply not_guard_misses_falsy]].
  destruct data as [|b|z|f|s|items|fields]; cbn [Py.contains Py.getitem].
  - done.
  - right. split; [done|].
    intros [?|[(? & ?)|[(? & ? & _)|(? & ? & _)]]]; congruence.
  - right. split; [done|].
    intros [?|[(? & ?)|[(? & ? & _)|(? & ? & _)]]]; congruence.
  - right. split; [done|].
    intros [?|[(? & ?)|[(? & ? & _)|(? & ? & _)]]]; congruence.
  - destruct (Py.is_substring "alerts" s) eqn:Hs; cbn.
    + right. split; [done|]. apply is_substring_spec in Hs.
      intros [?|[(? & ?)|[(? & ? & _)|(? & [= <-] & Hn)]]]; done || congruence.
    + left. split; [done|].
      intros [[_ [[? ?]|[[? ?]|[? ?]]]]|[(? & ? & _)|(? & [= <-] & Hsub)]];
        try done.
      apply is_substring_spec in Hsub. congruence.
  - destruct (existsb _ items) eqn:He; cbn.
    + right. split; [done|]. apply existsb_eq_str in He.
      intros [?|[(? & ?)|[(? & [= <-] & Hn)|(? & ? & _)]]]; done || congruence.
    + left. split; [done|].
      intros [[_ [[? ?]|[[? ?]|[? ?]]]]|[(? & [= <-] & Hin)|(? & ? & _)]];
        try done.
      apply existsb_eq_str in Hin. congruence.
  - cbn in Hf. destruct (fields !! "alerts") eqn:Hlk; [done|].
    rewrite bool_decide_eq_false_2 by (by intros [? ?]).
    left. split; [done|].
    intros [[_ [[? ?]|[[? ?]|[? ?]]]]|[(? & ? & _)|(? & ? & _)]]; done.
Qed.

(** ** The claims *)

(** C1.  In a well-formed batch with two or more alerts that match the
    rule, the first matching alert, in input order, is the one that
    triggers the remediation: the handler runs the command once and answers
    "Recovery triggered", and it does so whatever follows that alert in the
    batch, entries it could not even read included: nothing after the first
    match is inspected. *)
Theorem first_match_wins shell data alerts tr :
  batch_of data alerts →
  Forall (λ a, well_formed a = true) alerts →
  (2 ≤ length (List.filter matches alerts))%nat →
  ∃ pre hit post,
    alerts = pre ++ hit :: post ∧
    Forall (λ a, matches a = false) pre ∧ matches hit = true ∧
    ∀ data' post',
      batch_of data' (pre ++ hit :: post') →
      handle shell data' tr =
        (Ret ("Recovery triggered", 200),
         World (Ret data') (remediated shell (received tr))) ∧
      executor_calls (trace (handle shell data' tr).2) = S (executor_calls tr).
Proof.
  intros Hb Hwf Hlen.
  destruct (first_match_split alerts) as (pre & hit & post & -> & Hpre & Hhit).
  { apply filter_matches_exists. lia. }
  exists pre, hit, post. split_and!; [done..|].
  intros data' post' Hb'.
  apply Forall_app in Hwf as [Hwf _].
  rewrite (handle_batch _ _ _ _ Hb'), (scan_first_match _ _ _ Hwf Hpre Hhit).
  split; [done|]. cbn [snd trace].
  by rewrite executor_calls_remediated, executor_calls_received.
Qed.

(** C3.  On a well-formed batch in which no alert is named "NginxDown",
    the handler answers 200 "No matching alert found" and the remediation
    command is not run. *)
Theorem no_match_no_remediation shell data alerts tr :
  batch_of data alerts →
  Forall (λ a, well_formed a = true) alerts →
  Forall (λ a, matches a = false) alerts →
  handle shell data tr =
    (Ret ("No matching alert found", 200), World (Ret data) (received tr)) ∧
  executor_calls (trace (handle shell data tr).2) = executor_calls tr.
Proof.
  intros Hb Hwf Hm.
  rewrite (handle_batch _ _ _ _ Hb), (scan_no_match _ Hwf Hm).
  split; [done|]. apply executor_calls_received.
Qed.

(** C4.  Whatever the request body, valid or not, one run of the handler
    runs the remediation command zero times or once. *)
Theorem at_most_one_remediation shell data tr :
  executor_calls (trace (handle shell data tr).2) = executor_calls tr ∨
  executor_calls (trace (handle shell data tr).2) = S (executor_calls tr).
Proof.
  destruct (handle_cases shell data tr) as [-> | [o ->]]; cbn [snd trace].
  - right. by rewrite executor_calls_remediated, executor_calls_received.
  - left. apply executor_calls_received.
Qed.

(** C6.  Scenario 1: on the batch
    {"alerts":[{"labels":{"alertname":"NginxDown"}}]} the alert matches,
    the remediation command is run exactly once and the handler answers
    200 "Recovery triggered". *)
Theorem nginx_down_scenario shell tr :
  matches (alert_named "NginxDown") = true ∧
  handle shell nginx_down_batch tr =
    (Ret ("Recovery triggered", 200),
     World (Ret nginx_down_batch)
       (tr ++ [EvPrint "Webhook received!"; EvPrint alert_line;
               EvSystem playbook_cmd
                 (shell (tr ++ [EvPrint "Webhook received!"; EvPrint alert_line])
                    playbook_cmd)])) ∧
  executor_calls (trace (handle shell nginx_down_batch tr).2) =
    S (executor_calls tr).
Proof.
  pose proof (batch_of_batch [alert_named "NginxDown"]) as Hb.
  split; [by vm_compute|]. unfold nginx_down_batch.
  rewrite (handle_batch _ _ _ _ Hb).
  replace (scan _) with (Ret (A:=bool) true) by (by vm_compute).
  split.
  - unfold remediated, received. by rewrite <- !app_assoc.
  - cbn [snd trace]. by rewrite executor_calls_remediated, executor_calls_received.
Qed.

(** C2, on the code.  A parsed body without an "alerts" field never leads
    to a remediation.  The handler answers 400 "Invalid alert" when the
    body is None or otherwise false in the Python sense, an object without
    the key, an array with no element "alerts" or a string that does not
    contain "alerts".  It raises [TypeError] instead when the body is true
    or a nonzero number (at the membership test), or an array with an
    element "alerts" or a string containing "alerts" (at the subscript).
    Every body without the field is of one kind or the other. *)
Theorem invalid_payload_rejected shell data tr :
  has_field "alerts" data = false →
  executor_calls (trace (handle shell data tr).2) = executor_calls tr ∧
  (Py.truthy data = false ∨ (∃ fields, data = JObj fields) ∨
   (∃ items, data = JArr items ∧ JStr "alerts" ∉ items) ∨
   (∃ s, data = JStr s ∧ ¬ ∃ p q, s = p +:+ "alerts" +:+ q) →
   handle shell data tr =
     (Ret ("Invalid alert", 400), World (Ret data) (received tr))) ∧
  ((Py.truthy data = true ∧
    ((∃ b, data = JBool b) ∨ (∃ z, data = JInt z) ∨ (∃ f, data = JFloat f))) ∨
   (∃ items, data = JArr items ∧ JStr "alerts" ∈ items) ∨
   (∃ s, data = JStr s ∧ ∃ p q, s = p +:+ "alerts" +:+ q) →
   handle shell data tr = (Raise TypeError, World (Ret data) (received tr))) ∧
  (handle shell data tr =
     (Ret ("Invalid alert", 400), World (Ret data) (received tr)) ∨
   handle shell data tr = (Raise TypeError, World (Ret data) (received tr))).
Proof.
  intros Hf.
  destruct (handle_without_field shell data tr Hf) as [[Hrun Hno]|[Hrun Hno]];
    rewrite Hrun.
  - split_and!; [apply executor_calls_received|done| |by left].
    intros Hmiss. destruct (Hno Hmiss).
  - split_and!; [apply executor_calls_received| |done|by right].
    intros Hrej. destruct (Hno Hrej).
Qed.

(** C5, on the code.  The status [os.system] returns is dropped: when the
    playbook command of a matching batch returns a nonzero status, the
    handler still answers 200 "Recovery triggered", the answer it gives
    for every other status, and the status shows only in the trace of the
    command. *)
Theorem exit_status_discarded shell data alerts tr status :
  batch_of data alerts →
  Forall (λ a, well_formed a = true) alerts →
  Exists (λ a, matches a = true) alerts →
  shell (received tr ++ [EvPrint alert_line]) playbook_cmd = status →
  status ≠ 0 →
  handle shell data tr =
    (Ret ("Recovery triggered", 200),
     World (Ret data) (received tr ++
                 [EvPrint alert_line; EvSystem playbook_cmd status])) ∧
  ∀ shell', (handle shell' data tr).1 = Ret ("Recovery triggered", 200).
Proof.
  intros Hb Hwf Hm Hst _.
  assert (∀ sh, handle sh data tr =
    (Ret recovery_triggered, World (Ret data) (remediated sh (received tr)))) as Hrun.
  { intros sh. by rewrite (handle_batch _ _ _ _ Hb), (scan_match _ Hwf Hm). }
  split.
  - rewrite Hrun. unfold remediated. by rewrite Hst.
  - intros shell'. by rewrite Hrun.
Qed.

(** C7.  An alert whose labels have no "alertname" is read as having the
    empty name: it matches no rule, raises nothing, and the handler goes
    on with the alerts after it, exactly as if the entry were not in the
    batch. *)
Theorem missing_alertname_skipped shell data data' pre a rest fields labels tr :
  a = JObj fields →
  fields !! "labels" = Some (JObj labels) →
  labels !! "alertname" = None →
  batch_of data (pre ++ a :: rest) →
  batch_of data' (pre ++ rest) →
  Py.get (JObj labels) "alertname" (JStr "") = Ret (JStr "") ∧
  matches a = false ∧
  (∀ w, for_alerts shell (a :: rest) w = for_alerts shell rest w) ∧
  (handle shell data tr).1 = (handle shell data' tr).1 ∧
  trace (handle shell data tr).2 = trace (handle shell data' tr).2.
Proof.
  intros -> Hl Hn Hb Hb'.
  assert (inspect (JObj fields) = Ret false) as Hi.
  { unfold inspect. cbn. rewrite Hl. cbn. by rewrite Hn. }
  split_and!.
  - cbn. by rewrite Hn.
  - unfold matches. cbn. by rewrite Hl, Hn.
  - intros w. by rewrite for_alerts_cons, Hi.
  - rewrite (handle_batch _ _ _ _ Hb), (handle_batch _ _ _ _ Hb').
    rewrite (scan_skip_entry _ _ _ Hi). by destruct (scan _) as [[]|e].
  - rewrite (handle_batch _ _ _ _ Hb), (handle_batch _ _ _ _ Hb').
    rewrite (scan_skip_entry _ _ _ Hi). by destruct (scan _) as [[]|e].
Qed.

(** C10.  The handler only reads the batch: after it has run, with a
    response or with an exception, the parsed body is the one it was
    given. *)
Theorem batch_read_only shell w :
  request_json (alert_receiver shell w).2 = request_json w.
Proof.
  destruct w as [[data|e] tr]; [|reflexivity].
  by destruct (handle_cases shell data tr) as [Hrun | [o Hrun]];
    unfold handle in Hrun; rewrite Hrun.
Qed.

(** C8.  Nothing is remembered between requests: handling the same
    matching batch twice runs the remediation command twice, and both
    runs answer 200 "Recovery triggered". *)
Theorem repeated_batch_repeats_remediation shell data alerts tr :
  batch_of data alerts →
  Forall (λ a, well_formed a = true) alerts →
  Exists (λ a, matches a = true) alerts →
  let once := alert_receiver shell (World (Ret data) tr) in
  let twice := alert_receiver shell once.2 in
  once.1 = Ret ("Recovery triggered", 200) ∧
  request_json once.2 = Ret data ∧
  executor_calls (trace once.2) = S (executor_calls tr) ∧
  twice.1 = Ret ("Recovery triggered", 200) ∧
  executor_calls (trace twice.2) = S (S (executor_calls tr)).
Proof.
  intros Hb Hwf Hm.
  assert (∀ tr0, alert_receiver shell (World (Ret data) tr0) =
    (Ret recovery_triggered, World (Ret data) (remediated shell (received tr0)))) as Hrun.
  { intros tr0. change (alert_receiver shell (World (Ret data) tr0)) with (handle shell data tr0).
    by rewrite (handle_batch _ _ _ _ Hb), (scan_match _ Hwf Hm). }
  cbn zeta. rewrite Hrun. cbn [fst snd request_json trace]. rewrite Hrun.
  cbn [fst snd trace].
  by repeat (rewrite executor_calls_remediated || rewrite executor_calls_received).
Qed.

(** C9, on the code.  When an entry without a "labels" key, or one that is
    not a mapping, comes before any matching alert, the handler raises
    instead of answering, and runs no remediation.  The exception is that
    of the first entry of the list that is not an object with a mapping
    under "labels", which is the entry in question or one before it:
    [KeyError] if that entry is an object without "labels", [TypeError] if
    it is not an object, [AttributeError] if its "labels" is not a
    mapping. *)
Theorem malformed_entry_raises shell data pre bad post tr :
  batch_of data (pre ++ bad :: post) →
  Forall (λ a, matches a = false) pre →
  lacks_labels bad = true →
  ∃ before x after e,
    pre ++ bad :: post = before ++ x :: after ∧
    (length before ≤ length pre)%nat ∧
    Forall (λ a, well_formed a = true) before ∧
    well_formed x = false ∧
    handle shell data tr = (Raise e, World (Ret data) (received tr)) ∧
    executor_calls (trace (handle shell data tr).2) = executor_calls tr ∧
    ((∃ fields, x = JObj fields ∧ fields !! "labels" = None) →
     e = KeyError "labels") ∧
    ((∀ fields, x ≠ JObj fields) → e = TypeError) ∧
    ((∃ fields v, x = JObj fields ∧ fields !! "labels" = Some v) →
     e = AttributeError "get").
Proof.
  intros Hb Hpre Hbad.
  destruct (scan_first_ill_formed pre bad post Hpre Hbad)
    as (before & x & after & e & Heq & Hlen & Hwf & Hx & Hscan & Hi).
  exists before, x, after, e.
  rewrite (handle_batch _ _ _ _ Hb), Hscan.
  split_and!; [done..|apply executor_calls_received| | |].
  - intros (fields & -> & Hlk). revert Hi. unfold inspect. cbn.
    rewrite Hlk. congruence.
  - intros Hno. revert Hi. unfold inspect.
    destruct x as [| | | | | |fields]; cbn; [congruence..|].
    by destruct (Hno fields).
  - intros (fields & v & -> & Hlk). revert Hi Hx.
    unfold inspect, well_formed, alert_labels. cbn. rewrite Hlk.
    destruct v; cbn; congruence.
Qed.

(** ** The claims at sample requests *)

(** Two NginxDown alerts after a DiskFull one: the second entry triggers,
    the third is not looked at. *)
Lemma first_match_wins_witness :
  ∃ pre hit post,
    [alert_named "DiskFull"; alert_named "NginxDown"; alert_named "NginxDown"] =
      pre ++ hit :: post ∧
    Forall (λ a, matches a = false) pre ∧ matches hit = true ∧
    ∀ data' post',
      batch_of data' (pre ++ hit :: post') →
      handle failing_shell data' [] =
        (Ret ("Recovery triggered", 200),
         World (Ret data') (remediated failing_shell (received []))) ∧
      executor_calls (trace (handle failing_shell data' []).2) = 1%nat.
Proof.
  apply (first_match_wins failing_shell
           (batch [alert_named "DiskFull"; alert_named "NginxDown";
                   alert_named "NginxDown"])).
  - apply batch_of_batch.
  - all_entries.
  - vm_compute. lia.
Defined.

(** Scenario 2 of the specification: a DiskFull alert alone. *)
Lemma no_match_no_remediation_witness :
  handle failing_shell (batch [alert_named "DiskFull"]) [] =
    (Ret ("No matching alert found", 200),
     World (Ret (batch [alert_named "DiskFull"])) (received [])) ∧
  executor_calls (trace (handle failing_shell (batch [alert_named "DiskFull"]) []).2)
    = 0%nat.
Proof.
  apply (no_match_no_remediation failing_shell
           (batch [alert_named "DiskFull"]) [alert_named "DiskFull"] []).
  - apply batch_of_batch.
  - all_entries.
  - all_entries.
Defined.

(** C2 as stated fails on a body that is a number: 5 has no "alerts"
    field, and the handler raises [TypeError] on the membership test
    instead of answering 400. *)
Lemma number_body_not_rejected :
  has_field "alerts" (JInt 5) = false ∧
  handle quiet_shell (JInt 5) [] =
    (Raise TypeError, World (Ret (JInt 5)) [EvPrint "Webhook received!"]) ∧
  (handle quiet_shell (JInt 5) []).1 ≠ Ret ("Invalid alert", 400).
Proof. split_and!; [done..|]. by vm_compute. Qed.

(** Scenario 3 of the specification: the body {}. *)
Lemma invalid_payload_rejected_witness :
  has_field "alerts" (JObj ∅) = false ∧
  handle quiet_shell (JObj ∅) [] =
    (Ret ("Invalid alert", 400), World (Ret (JObj ∅)) (received [])) ∧
  executor_calls (trace (handle quiet_shell (JObj ∅) []).2) = 0%nat.
Proof.
  pose proof (invalid_payload_rejected quiet_shell (JObj ∅) [] eq_refl)
    as (Hcalls & Hrej & _ & _).
  split; [reflexivity|]. split; [|exact Hcalls].
  apply Hrej. right; left. by exists ∅.
Defined.

(** C5 as stated fails when the playbook fails: the command returns 256
    and the response is the one of a successful run. *)
Lemma failed_playbook_reported_as_triggered :
  handle failing_shell nginx_down_batch [] =
    (Ret ("Recovery triggered", 200),
     World (Ret nginx_down_batch)
       [EvPrint "Webhook received!"; EvPrint alert_line;
        EvSystem playbook_cmd 256]) ∧
  (handle failing_shell nginx_down_batch []).1 =
    (handle quiet_shell nginx_down_batch []).1.
Proof.
  split; [|apply handle_outcome_shell].
  unfold nginx_down_batch. rewrite (handle_batch _ _ _ _ (batch_of_batch _)).
  by replace (scan _) with (Ret (A:=bool) true) by (by vm_compute).
Qed.

Lemma exit_status_discarded_witness :
  handle failing_shell nginx_down_batch [] =
    (Ret ("Recovery triggered", 200),
     World (Ret nginx_down_batch)
       (received [] ++ [EvPrint alert_line; EvSystem playbook_cmd 256])) ∧
  ∀ shell', (handle shell' nginx_down_batch []).1 = Ret ("Recovery triggered", 200).
Proof.
  apply (exit_status_discarded failing_shell nginx_down_batch
           [alert_named "NginxDown"] [] 256).
  - apply batch_of_batch.
  - all_entries.
  - apply Exists_cons_hd. vm_compute. reflexivity.
  - reflexivity.
  - lia.
Defined.

(** An alert without a name between a DiskFull and an NginxDown alert. *)
Lemma missing_alertname_skipped_witness :
  Py.get (JObj {[ "severity" := JStr "critical" ]}) "alertname" (JStr "") =
    Ret (JStr "") ∧
  matches unnamed_alert = false ∧
  (∀ w, for_alerts quiet_shell [unnamed_alert; alert_named "NginxDown"] w =
        for_alerts quiet_shell [alert_named "NginxDown"] w) ∧
  (handle quiet_shell
     (batch [alert_named "DiskFull"; unnamed_alert; alert_named "NginxDown"]) []).1 =
  (handle quiet_shell
     (batch [alert_named "DiskFull"; alert_named "NginxDown"]) []).1 ∧
  trace (handle quiet_shell
     (batch [alert_named "DiskFull"; unnamed_alert; alert_named "NginxDown"]) []).2 =
  trace (handle quiet_shell
     (batch [alert_named "DiskFull"; alert_named "NginxDown"]) []).2.
Proof.
  apply (missing_alertname_skipped quiet_shell
           (batch [alert_named "DiskFull"; unnamed_alert; alert_named "NginxDown"])
           (batch [alert_named "DiskFull"; alert_named "NginxDown"])
           [alert_named "DiskFull"] unnamed_alert [alert_named "NginxDown"]
           {[ "labels" := JObj {[ "severity" := JStr "critical" ]} ]}
           {[ "severity" := JStr "critical" ]} []).
  - reflexivity.
  - vm_compute. reflexivity.
  - vm_compute. reflexivity.
  - apply batch_of_batch.
  - apply batch_of_batch.
Defined.

Lemma repeated_batch_repeats_remediation_witness :
  let once := alert_receiver failing_shell (World (Ret nginx_down_batch) []) in
  let twice := alert_receiver failing_shell once.2 in
  once.1 = Ret ("Recovery triggered", 200) ∧
  request_json once.2 = Ret nginx_down_batch ∧
  executor_calls (trace once.2) = 1%nat ∧
  twice.1 = Ret ("Recovery triggered", 200) ∧
  executor_calls (trace twice.2) = 2%nat.
Proof.
  apply (repeated_batch_repeats_remediation failing_shell nginx_down_batch
           [alert_named "NginxDown"] []).
  - apply batch_of_batch.
  - all_entries.
  - apply Exists_cons_hd. vm_compute. reflexivity.
Defined.

(** C9 as stated fails when an earlier entry has a "labels" that is not a
    mapping: in [{"labels": 5}, {}, NginxDown] the second entry lacks
    "labels" and comes before the only match, and the exception is the
    [AttributeError] of the first entry, neither [KeyError] nor
    [TypeError]. *)
Lemma earlier_entry_raises_attribute_error :
  matches (JObj {[ "labels" := JInt 5 ]}) = false ∧
  lacks_labels (JObj ∅) = true ∧
  matches (alert_named "NginxDown") = true ∧
  handle quiet_shell
    (batch [JObj {[ "labels" := JInt 5 ]}; JObj ∅; alert_named "NginxDown"]) [] =
    (Raise (AttributeError "get"),
     World (Ret (batch [JObj {[ "labels" := JInt 5 ]}; JObj ∅; alert_named "NginxDown"]))
       [EvPrint "Webhook received!"]).
Proof.
  split_and!; [by vm_compute..|].
  rewrite (handle_batch _ _ _ _ (batch_of_batch _)).
  by replace (scan _) with (Raise (A:=bool) (AttributeError "get"))
    by (by vm_compute).
Qed.

(** An entry {} between a DiskFull and an NginxDown alert: [KeyError]. *)
Lemma malformed_entry_raises_witness :
  ∃ before x after e,
    [alert_named "DiskFull"] ++ JObj ∅ :: [alert_named "NginxDown"] =
      before ++ x :: after ∧
    (length before ≤ length [alert_named "DiskFull"])%nat ∧
    Forall (λ a, well_formed a = true) before ∧
    well_formed x = false ∧
    handle quiet_shell
      (batch [alert_named "DiskFull"; JObj ∅; alert_named "NginxDown"]) [] =
      (Raise e,
       World (Ret (batch [alert_named "DiskFull"; JObj ∅; alert_named "NginxDown"]))
         (received [])) ∧
    executor_calls
      (trace (handle quiet_shell
                (batch [alert_named "DiskFull"; JObj ∅; alert_named "NginxDown"])
                []).2) = executor_calls [] ∧
    ((∃ fields, x = JObj fields ∧ fields !! "labels" = None) →
     e = KeyError "labels") ∧
    ((∀ fields, x ≠ JObj fields) → e = TypeError) ∧
    ((∃ fields v, x = JObj fields ∧ fields !! "labels" = Some v) →
     e = AttributeError "get").
Proof.
  apply (malformed_entry_raises quiet_shell
           (batch [alert_named "DiskFull"; JObj ∅; alert_named "NginxDown"])
           [alert_named "DiskFull"] (JObj ∅) [alert_named "NginxDown"] []).
  - apply batch_of_batch.
  - all_entries.
  - reflexivity.
Defined.

(** ** Further properties of the handler *)

(** X1.  The handler has six outcomes and no other: the three responses
    of the route, with status 200 or 400, and three exceptions.  The
    guard makes the lookup of "alerts" safe: the only [KeyError] is the
    one for "labels". *)
Theorem outcomes_closed shell data tr :
  (handle shell data tr).1 ∈
    [ Ret ("Recovery triggered", 200); Ret ("No matching alert found", 200);
      Ret ("Invalid alert", 400);
      Raise (KeyError "labels"); Raise TypeError; Raise (AttributeError "get") ].
Proof.
  destruct data as [|b|z|f|s|items|fields];
    try (not_object; cbn; set_solver).
  destruct (fields !! "alerts") as [v|] eqn:Hlk.
  - rewrite (handle_object _ _ _ _ Hlk).
    destruct (Py.iter v) as [items|e] eqn:Hv.
    + destruct (scan items) as [[]|e] eqn:Hs; cbn; [set_solver..|].
      destruct (scan_raises _ _ Hs) as [->|[->| ->]]; set_solver.
    + destruct v; cbn in Hv; try discriminate; injection Hv as <-;
        cbn; set_solver.
  - rewrite (handle_object_missing _ _ _ Hlk). cbn. set_solver.
Qed.

(** X2.  When [request.get_json()] raises, the handler raises the same
    exception at once: nothing is printed and nothing is run.  When it
    returns a body, the handler first prints "Webhook received!", before
    the body is looked at and whatever it is, and keeps what was output
    before; after that line it outputs nothing, or the alert line followed
    by one run of the fixed playbook command: nothing in the request
    chooses the command. *)
Theorem trace_shape shell w :
  match request_json w with
  | Raise e => alert_receiver shell w = (Raise e, w)
  | Ret data =>
      ∃ evs,
        trace (alert_receiver shell w).2 =
          trace w ++ EvPrint "Webhook received!" :: evs ∧
        (evs = [] ∨
         ∃ status,
           evs = [EvPrint "Alert received: NGINX is down! Attempting restart...";
                  EvSystem "ansible-playbook ../ansible/playbook.yml" status])
  end.
Proof.
  destruct w as [[data|e] tr]; cbn [request_json trace]; [|reflexivity].
  change (alert_receiver shell (World (Ret data) tr)) with (handle shell data tr).
  destruct (handle_cases shell data tr) as [-> | [o ->]]; cbn [snd trace].
  - eexists. split; [|right; by eexists].
    unfold remediated, received. by rewrite <- app_assoc.
  - exists []. by split; [|left].
Qed.

(** X3.  The playbook is run exactly when the answer is "Recovery
    triggered": no other response and no exception goes with a
    remediation, and that response never comes without one. *)
Theorem remediation_iff_recovery_triggered shell data tr :
  executor_calls (trace (handle shell data tr).2) = S (executor_calls tr) ↔
  (handle shell data tr).1 = Ret ("Recovery triggered", 200).
Proof.
  destruct (handle_cases_strict shell data tr) as [-> | (o & -> & Ho)];
    cbn [fst snd trace].
  - by rewrite executor_calls_remediated, executor_calls_received.
  - rewrite executor_calls_received. split; [lia|done].
Qed.

(** X4.  The answer is "Recovery triggered" exactly when the body is an
    object whose "alerts" is a list in which some entry matches and every
    entry before the first match is an object with a mapping under
    "labels". *)
Theorem recovery_triggered_iff shell data tr :
  (handle shell data tr).1 = Ret ("Recovery triggered", 200) ↔
  ∃ alerts pre hit post,
    batch_of data alerts ∧ alerts = pre ++ hit :: post ∧
    Forall (λ a, well_formed a = true ∧ matches a = false) pre ∧
    matches hit = true.
Proof.
  split.
  - destruct data as [|b|z|f|s|items|fields];
      try (not_object; discriminate).
    destruct (fields !! "alerts") as [v|] eqn:Hlk;
      [|by rewrite (handle_object_missing _ _ _ Hlk)].
    rewrite (handle_object _ _ _ _ Hlk).
    destruct v as [|b|z|f|s|alerts|entries]; cbn; try discriminate.
    + rewrite (scan_strings (λ c, String c EmptyString)).
      by destruct (list_ascii_of_string s).
    + destruct (scan alerts) as [[]|e] eqn:Hs; try discriminate.
      intros _. apply scan_true in Hs as (pre & hit & post & ? & ? & ?).
      exists alerts, pre, hit, post. split_and!; [by exists fields|done..].
    + rewrite (scan_strings fst). by destruct (map_to_list entries).
  - intros (alerts & pre & hit & post & Hb & Heq & Hpre & Hhit).
    rewrite (handle_batch _ _ _ _ Hb).
    by rewrite (proj2 (scan_true alerts)) by (by exists pre, hit, post).
Qed.

(** X5.  The answer is "No matching alert found" exactly when the body is
    an object whose "alerts" is a list of entries that all have a mapping
    under "labels" and do not match (the empty list included), or is an
    empty object or an empty string. *)
Theorem no_matching_alert_iff shell data tr :
  (handle shell data tr).1 = Ret ("No matching alert found", 200) ↔
  ∃ fields v,
    data = JObj fields ∧ fields !! "alerts" = Some v ∧
    (v = JObj ∅ ∨ v = JStr "" ∨
     ∃ alerts, v = JArr alerts ∧
       Forall (λ a, well_formed a = true ∧ matches a = false) alerts).
Proof.
  split.
  - destruct data as [|b|z|f|s|items|fields];
      try (not_object; discriminate).
    destruct (fields !! "alerts") as [v|] eqn:Hlk;
      [|by rewrite (handle_object_missing _ _ _ Hlk)].
    rewrite (handle_object _ _ _ _ Hlk). intros Hrun.
    exists fields, v. split_and!; [done..|].
    destruct v as [|b|z|f|s|alerts|entries]; cbn in Hrun; try discriminate.
    + rewrite (scan_strings (λ c, String c EmptyString)) in Hrun.
      destruct s; [auto|discriminate].
    + destruct (scan alerts) as [[]|e] eqn:Hs; try discriminate.
      apply scan_false in Hs. eauto.
    + rewrite (scan_strings fst) in Hrun.
      destruct (map_to_list entries) eqn:Hl; [|discriminate].
      apply map_to_list_empty_iff in Hl as ->. auto.
  - intros (fields & v & -> & Hlk & Hv).
    rewrite (handle_object _ _ _ _ Hlk).
    destruct Hv as [-> | [-> | (alerts & -> & Hall)]]; cbn.
    + by rewrite map_to_list_empty.
    + done.
    + by rewrite (proj2 (scan_false alerts) Hall).
Qed.

(** X6.  The answer is 400 "Invalid alert" exactly when the body is false
    in the Python sense (None, false, 0, 0.0, "", [], {}), an object
    without an "alerts" key, an array with no element equal to the string
    "alerts", or a string that does not contain "alerts".  An object with
    an "alerts" key is never rejected, whatever is stored under the key. *)
Theorem invalid_alert_iff shell data tr :
  (handle shell data tr).1 = Ret ("Invalid alert", 400) ↔
  Py.truthy data = false ∨
  (∃ fields, data = JObj fields ∧ fields !! "alerts" = None) ∨
  (∃ items, data = JArr items ∧ JStr "alerts" ∉ items) ∨
  (∃ s, data = JStr s ∧ ¬ ∃ p q, s = p +:+ "alerts" +:+ q).
Proof.
  rewrite handle_body.
  destruct (Py.truthy data) eqn:Ht; [|by split; [left|]].
  destruct data as [|b|z|f|s|items|fields]; cbn [Py.contains Py.getitem].
  - done.
  - split; [done|]. intros [?|[(? & ? & ?)|[(? & ? & ?)|(? & ? & ?)]]]; done.
  - split; [done|]. intros [?|[(? & ? & ?)|[(? & ? & ?)|(? & ? & ?)]]]; done.
  - split; [done|]. intros [?|[(? & ? & ?)|[(? & ? & ?)|(? & ? & ?)]]]; done.
  - destruct (Py.is_substring "alerts" s) eqn:Hs; cbn.
    + apply is_substring_spec in Hs. split; [done|].
      intros [?|[(? & ? & ?)|[(? & ? & ?)|(? & [= <-] & Hn)]]]; done.
    + split; [|done]. intros _. do 3 right. exists s. split; [done|].
      intros Hsub%is_substring_spec. congruence.
  - destruct (existsb _ items) eqn:He; cbn.
    + apply existsb_eq_str in He. split; [done|].
      intros [?|[(? & ? & ?)|[(? & [= <-] & Hn)|(? & ? & ?)]]]; done.
    + split; [|done]. intros _. right; right; left. exists items.
      split; [done|]. intros Hin%existsb_eq_str. congruence.
  - destruct (fields !! "alerts") as [v|] eqn:Hlk.
    + rewrite bool_decide_eq_true_2 by done. split.
      * repeat case_match; discriminate.
      * intros [?|[(? & [= <-] & ?)|[(? & ? & ?)|(? & ? & ?)]]];
          done || congruence.
    + rewrite bool_decide_eq_false_2 by (by intros [? ?]).
      split; [|done]. intros _. right; left. by exists fields.
Qed.

(** X7.  A body that is not an object and passes the guard by accident
    is not rejected but makes the handler raise [TypeError]: true or a
    nonzero number at the membership test, an array with the element
    "alerts" or a string containing "alerts" at the subscript.  Only the
    first line is printed and nothing is remediated. *)
Theorem unvalidated_body_raises shell data tr :
  (Py.truthy data = true ∧
   ((∃ b, data = JBool b) ∨ (∃ z, data = JInt z) ∨ (∃ f, data = JFloat f))) ∨
  (∃ items, data = JArr items ∧ JStr "alerts" ∈ items) ∨
  (∃ s, data = JStr s ∧ ∃ p q, s = p +:+ "alerts" +:+ q) →
  handle shell data tr = (Raise TypeError, World (Ret data) (received tr)).
Proof.
  rewrite handle_body.
  intros [[Ht [[b ->]|[[z ->]|[f ->]]]]|[(items & -> & Hin)|(s & -> & Hsub)]].
  - by rewrite Ht.
  - by rewrite Ht.
  - by rewrite Ht.
  - apply existsb_eq_str in Hin. destruct items as [|x items]; [done|].
    cbn [Py.truthy Py.contains Py.getitem]. by rewrite Hin.
  - apply is_substring_spec in Hsub. destruct s as [|c s]; [done|].
    cbn [Py.truthy Py.contains Py.getitem]. cbn [String.eqb negb]. by rewrite Hsub.
Qed.

(** X8.  An entry with a mapping under "labels" whose name is not
    "NginxDown" (another name, another case, a value that is not a
    string, or no name) is passed over: the outcome and the output are
    those of the batch without the entry, wherever the entry stands. *)
Theorem non_matching_entry_skipped shell data data' pre a rest tr :
  well_formed a = true →
  matches a = false →
  batch_of data (pre ++ a :: rest) →
  batch_of data' (pre ++ rest) →
  (handle shell data tr).1 = (handle shell data' tr).1 ∧
  trace (handle shell data tr).2 = trace (handle shell data' tr).2.
Proof.
  intros Hwf Hm Hb Hb'.
  rewrite (handle_batch _ _ _ _ Hb), (handle_batch _ _ _ _ Hb').
  rewrite (scan_skip_entry _ _ _ (inspect_no_match a Hwf Hm)).
  by destruct (scan _) as [[]|e].
Qed.

(** X9.  Of a request the handler reads only the "alerts" list and, of
    each entry, the "alertname" label: two bodies whose lists differ in
    one entry, both entries having a mapping under "labels" with the same
    "alertname" (or none), get the same outcome and the same output,
    whatever their other fields and labels are. *)
Theorem only_alertname_read shell data data' pre a a' rest labels labels' tr :
  alert_labels a = Some labels →
  alert_labels a' = Some labels' →
  labels !! "alertname" = labels' !! "alertname" →
  batch_of data (pre ++ a :: rest) →
  batch_of data' (pre ++ a' :: rest) →
  (handle shell data tr).1 = (handle shell data' tr).1 ∧
  trace (handle shell data tr).2 = trace (handle shell data' tr).2.
Proof.
  intros Ha Ha' Hname Hb Hb'.
  rewrite (handle_batch _ _ _ _ Hb), (handle_batch _ _ _ _ Hb').
  rewrite (scan_replace_entry pre a a' rest)
    by (by rewrite (inspect_labels _ _ Ha), (inspect_labels _ _ Ha'), Hname).
  by destruct (scan _) as [[]|e].
Qed.

(** X10.  When "alerts" is present but is not a list, nothing is
    remediated: an empty object or an empty string iterates to nothing
    and the answer is "No matching alert found"; any other value (null, a
    boolean, a number, a nonempty object or string) makes the handler
    raise [TypeError]. *)
Theorem alerts_not_a_list shell fields v tr :
  fields !! "alerts" = Some v →
  (∀ alerts, v ≠ JArr alerts) →
  (v = JObj ∅ ∨ v = JStr "" →
   handle shell (JObj fields) tr =
     (Ret ("No matching alert found", 200), World (Ret (JObj fields)) (received tr))) ∧
  (v ≠ JObj ∅ → v ≠ JStr "" →
   handle shell (JObj fields) tr =
     (Raise TypeError, World (Ret (JObj fields)) (received tr))).
Proof.
  intros Hlk Hv. rewrite (handle_object _ _ _ _ Hlk).
  pose proof (iter_not_a_list v Hv) as Hit.
  destruct (Py.iter v) as [items|e].
  - destruct Hit as [[-> Hempty]|(-> & Hne1 & Hne2)].
    + split; [done|]. intros ? ?. by destruct Hempty.
    + split; [|done]. by intros [?|?].
  - destruct Hit as (-> & Hne1 & Hne2). split; [|done]. by intros [?|?].
Qed.

(** X11.  The handler keeps nothing from one request to the next: its
    outcome is the same after any earlier output and on any machine, it
    depends on the body alone. *)
Theorem outcome_depends_on_body_only shell shell' data tr tr' :
  (handle shell data tr).1 = (handle shell' data tr').1.
Proof.
  rewrite !handle_body. by repeat case_match.
Qed.

(** *** The properties at sample requests *)

(** A batch with one NginxDown alert, and the body [null]. *)
Lemma remediation_iff_recovery_triggered_witness :
  executor_calls (trace (handle quiet_shell nginx_down_batch []).2) = 1%nat ∧
  (handle quiet_shell JNull []).1 ≠ Ret ("Recovery triggered", 200).
Proof.
  split.
  - apply (remediation_iff_recovery_triggered quiet_shell nginx_down_batch []).
    vm_compute. reflexivity.
  - intros Hrun.
    apply (remediation_iff_recovery_triggered quiet_shell JNull []) in Hrun.
    vm_compute in Hrun. discriminate Hrun.
Defined.

Lemma recovery_triggered_iff_witness :
  (handle failing_shell
     (batch [unnamed_alert; alert_named "NginxDown"; JNull]) []).1 =
    Ret ("Recovery triggered", 200).
Proof.
  apply (recovery_triggered_iff failing_shell
           (batch [unnamed_alert; alert_named "NginxDown"; JNull]) []).
  exists [unnamed_alert; alert_named "NginxDown"; JNull],
    [unnamed_alert], (alert_named "NginxDown"), [JNull].
  split; [apply batch_of_batch|].
  split; [reflexivity|].
  split; [all_entries|vm_compute; reflexivity].
Defined.

(** The body {"alerts": []}. *)
Lemma no_matching_alert_iff_witness :
  (handle failing_shell (batch []) []).1 = Ret ("No matching alert found", 200).
Proof.
  apply (no_matching_alert_iff failing_shell (batch []) []).
  exists {[ "alerts" := JArr [] ]}, (JArr []).
  split; [reflexivity|]. split; [vm_compute; reflexivity|].
  right; right. exists []. split; [reflexivity|constructor].
Defined.

(** The body ["alert"]: an array without the element "alerts". *)
Lemma invalid_alert_iff_witness :
  (handle quiet_shell (JArr [JStr "alert"]) []).1 = Ret ("Invalid alert", 400).
Proof.
  apply (invalid_alert_iff quiet_shell (JArr [JStr "alert"]) []).
  right; right; left. exists [JStr "alert"]. split; [reflexivity|].
  intros Hin. apply existsb_eq_str in Hin. vm_compute in Hin. discriminate Hin.
Defined.

(** The body "no alerts today": a string that contains "alerts". *)
Lemma unvalidated_body_raises_witness :
  handle quiet_shell (JStr "no alerts today") [] =
    (Raise TypeError, World (Ret (JStr "no alerts today")) (received [])).
Proof.
  apply (unvalidated_body_raises quiet_shell (JStr "no alerts today") []).
  right; right. exists "no alerts today". split; [reflexivity|].
  exists "no ", " today". reflexivity.
Defined.

(** An alert named in lower case between two others. *)
Lemma non_matching_entry_skipped_witness :
  (handle quiet_shell
     (batch [alert_named "DiskFull"; alert_named "nginxdown"; JNull]) []).1 =
  (handle quiet_shell (batch [alert_named "DiskFull"; JNull]) []).1 ∧
  trace (handle quiet_shell
     (batch [alert_named "DiskFull"; alert_named "nginxdown"; JNull]) []).2 =
  trace (handle quiet_shell (batch [alert_named "DiskFull"; JNull]) []).2.
Proof.
  apply (non_matching_entry_skipped quiet_shell
           (batch [alert_named "DiskFull"; alert_named "nginxdown"; JNull])
           (batch [alert_named "DiskFull"; JNull])
           [alert_named "DiskFull"] (alert_named "nginxdown") [JNull] []).
  - vm_compute. reflexivity.
  - vm_compute. reflexivity.
  - apply batch_of_batch.
  - apply batch_of_batch.
Defined.

(** The same alert with a "status" field and a second label, in a body
    that has a "receiver" field. *)
Lemma only_alertname_read_witness :
  (handle quiet_shell (batch [alert_named "NginxDown"]) []).1 =
  (handle quiet_shell
     (JObj {[ "receiver" := JStr "webhook";
              "alerts" := JArr [JObj {[ "status" := JStr "firing";
                  "labels" := JObj {[ "alertname" := JStr "NginxDown";
                                      "severity" := JStr "critical" ]} ]}] ]})
     []).1 ∧
  trace (handle quiet_shell (batch [alert_named "NginxDown"]) []).2 =
  trace (handle quiet_shell
     (JObj {[ "receiver" := JStr "webhook";
              "alerts" := JArr [JObj {[ "status" := JStr "firing";
                  "labels" := JObj {[ "alertname" := JStr "NginxDown";
                                      "severity" := JStr "critical" ]} ]}] ]})
     []).2.
Proof.
  apply (only_alertname_read quiet_shell _ _ []
           (alert_named "NginxDown")
           (JObj {[ "status" := JStr "firing";
                    "labels" := JObj {[ "alertname" := JStr "NginxDown";
                                        "severity" := JStr "critical" ]} ]})
           []
           {[ "alertname" := JStr "NginxDown" ]}
           {[ "alertname" := JStr "NginxDown"; "severity" := JStr "critical" ]}).
  - vm_compute. reflexivity.
  - vm_compute. reflexivity.
  - vm_compute. reflexivity.
  - apply batch_of_batch.
  - eexists. split; [reflexivity|]. vm_compute. reflexivity.
Defined.

(** The body {"alerts": 3}. *)
Lemma alerts_not_a_list_witness :
  (JInt 3 = JObj ∅ ∨ JInt 3 = JStr "" →
   handle quiet_shell (JObj {[ "alerts" := JInt 3 ]}) [] =
     (Ret ("No matching alert found", 200),
      World (Ret (JObj {[ "alerts" := JInt 3 ]})) (received []))) ∧
  (JInt 3 ≠ JObj ∅ → JInt 3 ≠ JStr "" →
   handle quiet_shell (JObj {[ "alerts" := JInt 3 ]}) [] =
     (Raise TypeError, World (Ret (JObj {[ "alerts" := JInt 3 ]})) (received []))).
Proof.
  apply (alerts_not_a_list quiet_shell {[ "alerts" := JInt 3 ]} (JInt 3) []).
  - vm_compute. reflexivity.
  - intros alerts Heq. discriminate Heq.
Defined.
